(** * pybind11_generics: the typed list view [List<T>] (include/pybind11_generics/list.h)

    A shallow embedding of the facade [List<T>] over a dynamically typed
    host list, together with the host-runtime primitives it consumes.

    Modelling choices.
    - Immutable host objects (None, bool, int, str) are values; list objects
      are mutable and live in a store, so a handle to a list is a reference
      [PyListObject a] to the address [a].  Two views holding the same address
      share the list.
    - A null [PyObject*] is [None : handle].
    - The host's error indicator (the pending error of the interpreter) is a
      field of the runtime state; C functions of the host update it.
    - C++ code runs in [Py], a state monad over the runtime with C++
      exceptions as a second outcome.
    - [size_t] and [ssize_t] are 64-bit; values are [Z] with the wrap-around
      written out in [static_cast_ssize_t]. *)

From Stdlib Require Import ZArith Lia.
From stdpp Require Import gmap strings list.

(** ** Host objects and runtime state *)

Definition addr := positive.

Inductive PyObject : Type :=
| Py_None
| PyBool (b : bool)
| PyLong (z : Z)
| PyUnicode (s : string)
| PyListObject (a : addr).

(** [py::handle]: a possibly null [PyObject*]. *)
Definition handle := option PyObject.

Inductive PyExcType : Type :=
| PyExc_IndexError
| PyExc_SystemError
| PyExc_MemoryError
| PyExc_OverflowError.

Record PyErr : Type := mkPyErr { exc_type : PyExcType; exc_msg : string }.

Record PyRuntime : Type := mkPyRuntime {
  ob_item : gmap addr (list PyObject);   (* the items of every live list object *)
  err_indicator : option PyErr;          (* the pending error, if any *)
  out_of_memory : bool                   (* the allocator cannot grow a list *)
}.

Definition set_err (e : option PyErr) (rt : PyRuntime) : PyRuntime :=
  mkPyRuntime (ob_item rt) e (out_of_memory rt).

Definition set_items (a : addr) (items : list PyObject) (rt : PyRuntime) : PyRuntime :=
  mkPyRuntime (<[a := items]> (ob_item rt)) (err_indicator rt) (out_of_memory rt).

(** ** C++ exceptions and the [Py] monad *)

Inductive exception : Type :=
| error_already_set (fetched : option PyErr)   (* carries the fetched pending error *)
| cast_error.

Inductive Result (A : Type) : Type :=
| Return (a : A)
| Throw (e : exception).
Arguments Return {A} a.
Arguments Throw {A} e.

(** A C function of the host: it reads and updates the runtime, and reports
    failure through its return value and the error indicator. *)
Definition C (A : Type) : Type := PyRuntime -> A * PyRuntime.

(** C++ code: it either returns or throws. *)
Definition Py (A : Type) : Type := PyRuntime -> Result A * PyRuntime.

Definition py_ret {A} (a : A) : Py A := fun rt => (Return a, rt).

Definition py_bind {A B} (m : Py A) (k : A -> Py B) : Py B :=
  fun rt =>
    match m rt with
    | (Return a, rt1) => k a rt1
    | (Throw e, rt1) => (Throw e, rt1)
    end.

Definition call {A} (f : C A) : Py A := fun rt => let (a, rt1) := f rt in (Return a, rt1).

Definition lift {A} (r : Result A) : Py A := fun rt => (r, rt).

Notation "'let*' x ':=' m 'in' k" := (py_bind m (fun x => k))
  (at level 10, x name, m at level 100, k at level 200).

(** [throw py::error_already_set()]: the constructor fetches the pending error,
    which clears the indicator, and the exception carries it. *)
Definition throw_error_already_set {A} : Py A :=
  fun rt => (Throw (error_already_set (err_indicator rt)), set_err None rt).

(** The spec's names for the three error kinds, as the exceptions that carry
    them. *)
Definition TypeConversionError : exception := cast_error.
Definition IndexAccessError (e : PyErr) : exception := error_already_set (Some e).
Definition RuntimeOperationError (e : PyErr) : exception := error_already_set (Some e).

(** ** Machine integers *)

Definition PY_SSIZE_T_MAX : Z := 2 ^ 63 - 1.
Definition SIZE_MAX : Z := 2 ^ 64 - 1.

(** [static_cast<ssize_t>(index)] for a [size_t] index. *)
Definition static_cast_ssize_t (index : Z) : Z :=
  let u := (index mod 2 ^ 64)%Z in
  if (u <? 2 ^ 63)%Z then u else (u - 2 ^ 64)%Z.

(** ** Host list primitives *)

(** Modelled from the spec: the host runtime's error-propagation
    primitives.  Setting an error makes it the pending one. *)
Definition PyErr_SetString (ty : PyExcType) (msg : string) (rt : PyRuntime) : PyRuntime :=
  set_err (Some (mkPyErr ty msg)) rt.

Definition PyErr_BadInternalCall (rt : PyRuntime) : PyRuntime :=
  PyErr_SetString PyExc_SystemError "bad argument to internal function" rt.

Definition PyErr_NoMemory (rt : PyRuntime) : PyRuntime :=
  PyErr_SetString PyExc_MemoryError EmptyString rt.

Definition index_error : PyErr := mkPyErr PyExc_IndexError "list index out of range".

(** Modelled from the spec: the host runtime's [PyList_Check], the outer
    shape test: the object is a list. *)
Definition PyList_Check (o : PyObject) : bool :=
  match o with
  | PyListObject _ => true
  | _ => false
  end.

(** Modelled from the spec: the raw indexed get of the underlying list
    primitive (the host runtime's [PyList_GetItem], outside this repository).
    It yields the element at a position in [0, length) as a borrowed handle;
    on any other position, or when the object is not a live list, it returns
    null and leaves an error pending.  Positions are never counted from the
    end. *)
Definition PyList_GetItem (op : handle) (i : Z) : C handle :=
  fun rt =>
    match op with
    | Some (PyListObject a) =>
        match ob_item rt !! a with
        | Some items =>
            if ((i <? 0) || (Z.of_nat (length items) <=? i))%Z
            then (None, PyErr_SetString PyExc_IndexError "list index out of range" rt)
            else (items !! Z.to_nat i, rt)
        | None => (None, PyErr_BadInternalCall rt)
        end
    | _ => (None, PyErr_BadInternalCall rt)
    end.

(** Modelled from the spec: the host runtime's [PyList_GET_SIZE], the length
    of a list. *)
Definition PyList_GET_SIZE (op : handle) (rt : PyRuntime) : Z :=
  match op with
  | Some (PyListObject a) =>
      match ob_item rt !! a with
      | Some items => Z.of_nat (length items)
      | None => 0
      end
  | _ => 0
  end.

(** Modelled from the spec: the raw append of the underlying list primitive
    (the host runtime's [PyList_Append], outside this repository).  It puts
    the new item after the last one and returns 0; it returns -1 with an error
    pending when the list cannot grow (length limit reached, or resource
    exhaustion) or when an argument is not what it expects. *)
Definition PyList_Append (op newitem : handle) : C Z :=
  fun rt =>
    match op, newitem with
    | Some (PyListObject a), Some v =>
        match ob_item rt !! a with
        | Some items =>
            if (Z.of_nat (length items) =? PY_SSIZE_T_MAX)%Z
            then ((-1)%Z,
                  PyErr_SetString PyExc_OverflowError "cannot add more objects to list" rt)
            else if out_of_memory rt
            then ((-1)%Z, PyErr_NoMemory rt)
            else (0%Z, set_items a (items ++ [v]) rt)
        | None => ((-1)%Z, PyErr_BadInternalCall rt)
        end
    | _, _ => ((-1)%Z, PyErr_BadInternalCall rt)
    end.

(** ** The casting layer *)

(** Modelled from the spec: the casting layer's interface for a native type
    [T], outside this repository.  [load] (the spec's cast) converts a handle
    to a [T] when the dynamic type is compatible; [cast] (the spec's
    to_handle) converts a [T] to a handle, null when the conversion fails. *)
Class type_caster (T : Type) : Type := {
  load : handle -> option T;
  cast : T -> handle
}.

(** Modelled from the spec: [cast_from_handle<T>], declared in
    cast_input_iterator.h, which is not among the sources.  It passes the raw
    handle through the casting layer to produce a [T]; it fails with
    TypeConversionError when the value's dynamic type is incompatible with
    [T]. *)
Definition cast_from_handle {T} `{type_caster T} (h : handle) : Result T :=
  match load h with
  | Some v => Return v
  | None => Throw cast_error
  end.

(** Modelled from the spec: the casting layer's [to_handle] (the binding
    library's [object_or_cast]), the conversion to the runtime's dynamic
    representation; a failure is a TypeConversionError. *)
Definition object_or_cast {T} `{type_caster T} (v : T) : Result handle :=
  match cast v with
  | Some o => Return (Some o)
  | None => Throw cast_error
  end.

(** The element's dynamic type is incompatible with [T]. *)
Definition incompatible (T : Type) `{type_caster T} (h : handle) : Prop := load h = None.

(** Modelled from the spec: the casting layer's conversion to a handle is the
    inverse of its conversion from a handle: a handle produced from a value
    converts back to that value. *)
Class type_caster_inverse (T : Type) `{type_caster T} : Prop :=
  load_cast : forall (v : T) (x : PyObject), cast v = Some x -> load (Some x) = Some v.

(** ** The base list class of the binding library *)

(** Modelled from the spec: [py::list::check_], the base container check of
    the binding library: the handle is not null and refers to a list. *)
Definition list_base_check_ (h : handle) : bool :=
  match h with
  | Some o => PyList_Check o
  | None => false
  end.

(** Modelled from the spec: [py::list::append<T>] of the binding library: it
    converts the value to the runtime's dynamic representation and appends it
    with the host list's own append primitive; a failure of the conversion
    propagates as TypeConversionError, a failure of the append itself as
    RuntimeOperationError. *)
Definition list_base_append {T} `{type_caster T} (self : handle) (val : T) : Py unit :=
  let* h := lift (object_or_cast val) in
  let* rc := call (PyList_Append self h) in
  if (rc =? 0)%Z then py_ret tt else throw_error_already_set.

(** Modelled from the spec: [py::detail::list_iterator], the raw iterator of
    the binding library over the items of a list: a position in the item
    array. *)
Record list_iterator : Type := mk_list_iterator { it_obj : handle; it_pos : Z }.

(** Modelled from the spec: [py::list::begin], the raw iterator at the first
    item. *)
Definition list_base_begin (self : handle) : list_iterator := mk_list_iterator self 0.

(** Modelled from the spec: [py::list::end], the raw iterator past the last
    item, at the length the list has when it is built. *)
Definition list_base_end (self : handle) (rt : PyRuntime) : list_iterator :=
  mk_list_iterator self (PyList_GET_SIZE self rt).

(** Modelled from the spec: dereferencing the raw iterator reads the item at
    its position, without conversion; null where there is no item. *)
Definition list_iterator_dereference (it : list_iterator) (rt : PyRuntime) : handle :=
  match it_obj it with
  | Some (PyListObject a) =>
      match ob_item rt !! a with
      | Some items => if (it_pos it <? 0)%Z then None else items !! Z.to_nat (it_pos it)
      | None => None
      end
  | _ => None
  end.

(** Modelled from the spec: the raw iterator moves forward by one item. *)
Definition list_iterator_increment (it : list_iterator) : list_iterator :=
  mk_list_iterator (it_obj it) (it_pos it + 1).

(** Identity of two handles: the same list object, or the same immutable
    value. *)
Definition handle_eqb (h1 h2 : handle) : bool :=
  match h1, h2 with
  | None, None => true
  | Some (PyListObject a), Some (PyListObject b) => bool_decide (a = b)
  | Some Py_None, Some Py_None => true
  | Some (PyBool x), Some (PyBool y) => Bool.eqb x y
  | Some (PyLong x), Some (PyLong y) => (x =? y)%Z
  | Some (PyUnicode x), Some (PyUnicode y) => String.eqb x y
  | _, _ => false
  end.

(** Modelled from the spec: two raw iterators are equal when they stand at
    the same position of the same list. *)
Definition list_iterator_equal (i1 i2 : list_iterator) : bool :=
  handle_eqb (it_obj i1) (it_obj i2) && (it_pos i1 =? it_pos i2)%Z.

(** ** The view: [template <typename T> class List : public list_base] *)

Record List (T : Type) : Type := mkList { m_ptr : handle }.
Arguments mkList {T} m_ptr.
Arguments m_ptr {T} l.

Definition ptr {T} (self : List T) : handle := m_ptr self.

(** [using list_base::check_;] the static member of [List<T>] is the one of
    the base class. *)
Definition check_ (T : Type) (h : handle) : bool := list_base_check_ h.

Section ListView.
Context {T : Type} `{type_caster T}.

(** [value_type operator[](size_t index) const] *)
Definition operator_subscript (self : List T) (index : Z) : Py T :=
  let* result := call (PyList_GetItem (ptr self) (static_cast_ssize_t index)) in
  match result with
  | None => throw_error_already_set
  | Some _ => lift (cast_from_handle result)
  end.

(** [void append(value_type &&val) const] *)
Definition append (self : List T) (val : T) : Py unit :=
  list_base_append (ptr self) val.
End ListView.

(** ** The casting iterator *)

(** Modelled from the spec: [cast_input_iterator<T, It>], declared in
    cast_input_iterator.h, which is not among the sources: a wrapper that
    lazily applies the casting layer's conversion to each element yielded by a
    raw iterator over the underlying list.  Constructing it converts nothing;
    each dereference fetches the raw element and converts it as
    [cast_from_handle] does. *)
Record cast_input_iterator (T : Type) : Type := mk_cast_input_iterator { iter_ : list_iterator }.
Arguments mk_cast_input_iterator {T} iter_.
Arguments iter_ {T} c.

Section Iteration.
Context {T : Type} `{type_caster T}.

Definition cast_input_iterator_dereference
    (it : cast_input_iterator T) (rt : PyRuntime) : Result T :=
  cast_from_handle (list_iterator_dereference (iter_ it) rt).

Definition cast_input_iterator_increment (it : cast_input_iterator T) : cast_input_iterator T :=
  mk_cast_input_iterator (list_iterator_increment (iter_ it)).

Definition cast_input_iterator_equal (i1 i2 : cast_input_iterator T) : bool :=
  list_iterator_equal (iter_ i1) (iter_ i2).

(** [const_iterator begin() const] *)
Definition begin (self : List T) : cast_input_iterator T :=
  mk_cast_input_iterator (list_base_begin (ptr self)).

(** [const_iterator end() const] *)
Definition end_ (self : List T) (rt : PyRuntime) : cast_input_iterator T :=
  mk_cast_input_iterator (list_base_end (ptr self) rt).

(** The iterator of the view [self] at position [k]. *)
Definition at_pos (self : List T) (k : nat) : cast_input_iterator T :=
  mk_cast_input_iterator (mk_list_iterator (ptr self) (Z.of_nat k)).

(** The iterator [n] increments after [it]. *)
Fixpoint advance (n : nat) (it : cast_input_iterator T) : cast_input_iterator T :=
  match n with
  | O => it
  | S k => advance k (cast_input_iterator_increment it)
  end.

(** A consumer's loop [for (; it != e; ++it) { T x = *it; ... }] with a bound on
    the number of turns: the elements yielded, and the exception that ended
    the loop, if one did.  [None] when the bound is reached. *)
Fixpoint range_for (fuel : nat) (it e : cast_input_iterator T) (rt : PyRuntime)
    : option (list T * option exception) :=
  match fuel with
  | O => None
  | S f =>
      if cast_input_iterator_equal it e then Some ([], None)
      else
        match cast_input_iterator_dereference it rt with
        | Throw ex => Some ([], Some ex)
        | Return x =>
            match range_for f (cast_input_iterator_increment it) e rt with
            | Some (xs, r) => Some (x :: xs, r)
            | None => None
            end
        end
  end.

(** What a full traversal of the items is expected to yield: the converted
    elements up to the first one that does not convert. *)
Fixpoint convert_all (items : list PyObject) : list T * option exception :=
  match items with
  | [] => ([], None)
  | x :: rest =>
      match cast_from_handle (Some x) with
      | Throw ex => ([], Some ex)
      | Return v => let (vs, r) := convert_all rest in (v :: vs, r)
      end
  end.
End Iteration.

(** ** Type descriptors *)

(** The descriptor type of the binding library; [const_name] is its literal
    macro [_("...")] and [+] on descriptors is concatenation. *)
Definition PYBIND11_DESCR : Type := string.
Definition const_name (s : string) : PYBIND11_DESCR := s.
Definition descr_plus (a b : PYBIND11_DESCR) : PYBIND11_DESCR := String.append a b.

(** The type-name registry: [handle_type_name<T>::name()]. *)
Class handle_type_name (T : Type) : Type := name : PYBIND11_DESCR.
Arguments name T {_}.

(** [template <typename T> struct handle_type_name<pybind11_generics::List<T>>] *)
#[export] Instance handle_type_name_List (T : Type) `{handle_type_name T}
    : handle_type_name (List T) :=
  descr_plus (descr_plus (const_name "List[") (name T)) (const_name "]").

(** [n] levels of [List<...>] around [T]. *)
Fixpoint Nested (n : nat) (T : Type) : Type :=
  match n with
  | O => T
  | S k => List (Nested k T)
  end.

Fixpoint handle_type_name_Nested (n : nat) (T : Type) `{handle_type_name T}
    : handle_type_name (Nested n T) :=
  match n with
  | O => name T
  | S k => @handle_type_name_List (Nested k T) (handle_type_name_Nested k T)
  end.

Fixpoint repeat_descr (n : nat) (s : PYBIND11_DESCR) : PYBIND11_DESCR :=
  match n with
  | O => const_name EmptyString
  | S k => descr_plus s (repeat_descr k s)
  end.

(** ** Casters and descriptors of some element types *)

(** Modelled from the spec: the casting layer and the registered descriptor
    for a native integer, which are outside this repository: a host int
    converts to the integer of the same value, anything else is incompatible;
    its descriptor is "int". *)
Definition integer : Type := Z.

#[export] Instance type_caster_integer : type_caster integer := {|
  load h := match h with Some (PyLong z) => Some z | _ => None end;
  cast v := Some (PyLong v)
|}.

#[export] Instance handle_type_name_integer : handle_type_name integer := const_name "int".

(** Modelled from the spec: the casting layer for a view as an element type
    (the binding library's caster for its own object types): a handle loads
    when [check_] accepts it, and the view converts to the handle it wraps. *)
#[export] Instance type_caster_List (U : Type) : type_caster (List U) := {|
  load h := if check_ U h then Some (mkList h) else None;
  cast v := ptr v
|}.

(** ** Well-formed views *)

(** The view [self] wraps the live list at address [a], whose items are
    [items]; a host list never has more than [PY_SSIZE_T_MAX] items. *)
Definition wraps {T} (rt : PyRuntime) (self : List T) (a : addr) (items : list PyObject) : Prop :=
  ptr self = Some (PyListObject a)
  /\ ob_item rt !! a = Some items
  /\ (Z.of_nat (length items) <= PY_SSIZE_T_MAX)%Z.

(** ** Running examples: the scenarios of the specification *)

Definition items123 : list PyObject := [PyLong 1; PyLong 2; PyLong 3].
Definition items1x3 : list PyObject := [PyLong 1; PyUnicode "x"; PyLong 3].

Definition rt123 : PyRuntime := mkPyRuntime {[ 1%positive := items123 ]} None false.
Definition rt1x3 : PyRuntime := mkPyRuntime {[ 1%positive := items1x3 ]} None false.

(** The runtime after 4 has been appended to the list of [rt123]. *)
Definition rt1234 : PyRuntime := set_items 1%positive (items123 ++ [PyLong 4]) rt123.

(** A runtime whose allocator cannot grow a list. *)
Definition rt_exhausted : PyRuntime := mkPyRuntime {[ 1%positive := items123 ]} None true.

Definition view1 : List integer := mkList (Some (PyListObject 1%positive)).

Ltac wraps_by_computation :=
  split; [reflexivity | split; [reflexivity | unfold PY_SSIZE_T_MAX; simpl; lia]].

(** ** Consumers and checks used to state further properties *)

Section Consumers.
Context {T : Type} `{type_caster T}.

(** A caller's loop [for (auto &v : vs) view.append(std::move(v));]: the
    values are appended in order and the first exception ends the loop. *)
Fixpoint append_all (self : List T) (vs : list T) : Py unit :=
  match vs with
  | [] => py_ret tt
  | v :: rest => let* _ := append self v in append_all self rest
  end.
End Consumers.

(** Scanning a descriptor from bracket depth [d]: the depth after the last
    character, or [None] when a closing bracket has no opening one. *)
Fixpoint bracket_depth (s : PYBIND11_DESCR) (d : nat) : option nat :=
  match s with
  | EmptyString => Some d
  | String c rest =>
      if String.eqb (String c EmptyString) "[" then bracket_depth rest (S d)
      else if String.eqb (String c EmptyString) "]" then
        match d with
        | O => None
        | S k => bracket_depth rest k
        end
      else bracket_depth rest d
  end.

(** Every bracket of the descriptor is matched. *)
Definition balanced (s : PYBIND11_DESCR) : Prop := bracket_depth s 0 = Some 0%nat.

(** A view that was made to wrap an object that is not a list. *)
Definition view_of_int : List integer := mkList (Some (PyLong 5)).

(** A runtime with two lists, and a view on the second one. *)
Definition rt_two : PyRuntime :=
  mkPyRuntime {[ 1%positive := items123; 2%positive := items1x3 ]} None false.

Definition view2 : List integer := mkList (Some (PyListObject 2%positive)).

(** A runtime whose list is empty. *)
Definition rt_empty : PyRuntime := mkPyRuntime {[ 1%positive := [] ]} None false.

(** A second view, of lists as elements, on the list that [view1] wraps. *)
Definition view1_as_lists : List (List integer) := mkList (Some (PyListObject 1%positive)).



(** * Properties *)

(** ** Machine index conversion *)

Lemma static_cast_ssize_t_small (index : Z) :
  (0 <= index < 2 ^ 63)%Z -> static_cast_ssize_t index = index.
Proof.
  intros Hr. unfold static_cast_ssize_t.
  rewrite Z.mod_small by lia.
  destruct (Z.ltb_spec index (2 ^ 63)); [reflexivity | lia].
Qed.

Lemma static_cast_ssize_t_large (index : Z) :
  (2 ^ 63 <= index <= SIZE_MAX)%Z -> static_cast_ssize_t index = (index - 2 ^ 64)%Z.
Proof.
  unfold SIZE_MAX. intros Hr. unfold static_cast_ssize_t.
  rewrite Z.mod_small by lia.
  destruct (Z.ltb_spec index (2 ^ 63)); [lia | reflexivity].
Qed.

(** A [size_t] at or beyond the length converts to a position that the host
    list rejects: either still at or beyond the length, or negative. *)
Lemma static_cast_ssize_t_rejected (len index : Z) :
  (0 <= index <= SIZE_MAX)%Z -> (len <= index)%Z ->
  (static_cast_ssize_t index < 0 \/ len <= static_cast_ssize_t index)%Z.
Proof.
  intros Hr Hlen.
  destruct (Z.lt_ge_cases index (2 ^ 63)) as [Hs | Hl].
  - right. rewrite static_cast_ssize_t_small by lia. exact Hlen.
  - left. rewrite static_cast_ssize_t_large by lia. unfold SIZE_MAX in Hr. lia.
Qed.

(** ** The raw indexed get *)

Lemma PyList_GetItem_in_range (rt : PyRuntime) (a : addr) (items : list PyObject) (i : Z) :
  ob_item rt !! a = Some items ->
  (0 <= i < Z.of_nat (length items))%Z ->
  PyList_GetItem (Some (PyListObject a)) i rt = (items !! Z.to_nat i, rt).
Proof.
  intros Hlive Hi. unfold PyList_GetItem. rewrite Hlive.
  destruct (Z.ltb_spec i 0); [lia |].
  destruct (Z.leb_spec (Z.of_nat (length items)) i); [lia | reflexivity].
Qed.

Lemma PyList_GetItem_out_of_range (rt : PyRuntime) (a : addr) (items : list PyObject) (i : Z) :
  ob_item rt !! a = Some items ->
  (i < 0 \/ Z.of_nat (length items) <= i)%Z ->
  PyList_GetItem (Some (PyListObject a)) i rt = (None, set_err (Some index_error) rt).
Proof.
  intros Hlive Hi. unfold PyList_GetItem. rewrite Hlive.
  destruct (Z.ltb_spec i 0); [reflexivity |].
  destruct (Z.leb_spec (Z.of_nat (length items)) i); [reflexivity | lia].
Qed.

Lemma lookup_in_range (items : list PyObject) (i : Z) :
  (0 <= i < Z.of_nat (length items))%Z -> exists x, items !! Z.to_nat i = Some x.
Proof.
  intros Hi. apply lookup_lt_is_Some_2. lia.
Qed.

(** ** Indexed read *)

Section IndexedGet.
Context {T : Type} `{type_caster T}.

Lemma operator_subscript_hit
    (rt : PyRuntime) (self : List T) (a : addr) (items : list PyObject) (index : Z) (x : PyObject) :
  wraps rt self a items ->
  (0 <= index)%Z ->
  items !! Z.to_nat index = Some x ->
  operator_subscript self index rt = (cast_from_handle (Some x), rt).
Proof.
  intros (Hptr & Hlive & Hmax) Hnn Hx.
  assert (Hlt : (index < Z.of_nat (length items))%Z).
  { apply lookup_lt_Some in Hx. lia. }
  unfold PY_SSIZE_T_MAX in Hmax.
  unfold operator_subscript, py_bind, call.
  rewrite Hptr, static_cast_ssize_t_small by lia.
  rewrite (PyList_GetItem_in_range rt a items index Hlive) by lia.
  rewrite Hx. reflexivity.
Qed.

Lemma operator_subscript_miss
    (rt : PyRuntime) (self : List T) (a : addr) (items : list PyObject) (index : Z) :
  wraps rt self a items ->
  (0 <= index <= SIZE_MAX)%Z ->
  (Z.of_nat (length items) <= index)%Z ->
  operator_subscript self index rt
  = (Throw (error_already_set (Some index_error)), set_err None rt).
Proof.
  intros (Hptr & Hlive & Hmax) Hr Hge.
  unfold operator_subscript, py_bind, call.
  rewrite Hptr.
  rewrite (PyList_GetItem_out_of_range rt a items _ Hlive)
    by (apply static_cast_ssize_t_rejected; assumption).
  reflexivity.
Qed.

Lemma cast_from_handle_Throw (h : handle) (e : exception) :
  cast_from_handle h = Throw e -> e = cast_error /\ load h = None.
Proof.
  unfold cast_from_handle. destruct (load h); intros Heq; [discriminate |].
  injection Heq as <-. split; reflexivity.
Qed.

Lemma cast_from_handle_Return (h : handle) (v : T) :
  cast_from_handle h = Return v <-> load h = Some v.
Proof.
  unfold cast_from_handle. destruct (load h); split; intros Heq;
    try discriminate; congruence.
Qed.

Lemma cast_from_handle_incompatible (h : handle) :
  cast_from_handle h = Throw TypeConversionError <-> incompatible T h.
Proof.
  unfold cast_from_handle, incompatible, TypeConversionError.
  destruct (load h); split; intros Heq; try discriminate; reflexivity.
Qed.

(** C1: for an index within [0, len), [operator[]] returns the element at
    that index converted to [T], or throws TypeConversionError exactly when
    that element is incompatible with [T].  The outcome is the one of
    converting that single element: it is the same in every list that has
    this element at this index, so nothing is checked before the access,
    and a failed conversion never yields a value. *)
Theorem operator_subscript_in_range
    (rt : PyRuntime) (self : List T) (a : addr) (items : list PyObject) (index : Z) :
  wraps rt self a items ->
  (0 <= index < Z.of_nat (length items))%Z ->
  exists x,
    items !! Z.to_nat index = Some x
    /\ operator_subscript self index rt = (cast_from_handle (Some x), rt)
    /\ (fst (operator_subscript self index rt) = Throw TypeConversionError
        <-> incompatible T (Some x))
    /\ (forall v, fst (operator_subscript self index rt) = Return v
                  <-> load (Some x) = Some v)
    /\ (forall rt' (self' : List T) a' items',
          wraps rt' self' a' items' ->
          items' !! Z.to_nat index = Some x ->
          fst (operator_subscript self' index rt')
          = fst (operator_subscript self index rt)).
Proof.
  intros Hw Hi.
  destruct (lookup_in_range items index Hi) as [x Hx].
  exists x. split; [exact Hx |].
  pose proof (operator_subscript_hit rt self a items index x Hw (proj1 Hi) Hx) as Heq.
  rewrite Heq. simpl.
  split; [reflexivity |].
  split; [apply cast_from_handle_incompatible |].
  split; [intros v; apply cast_from_handle_Return |].
  intros rt' self' a' items' Hw' Hx'.
  rewrite (operator_subscript_hit rt' self' a' items' index x Hw' (proj1 Hi) Hx').
  reflexivity.
Qed.

(** C2: for a [size_t] index outside [0, len), [operator[]] throws
    [error_already_set] carrying exactly the error that the raw get left
    pending (the index error), and never returns a value. *)
Theorem operator_subscript_out_of_range
    (rt : PyRuntime) (self : List T) (a : addr) (items : list PyObject) (index : Z) :
  wraps rt self a items ->
  (0 <= index <= SIZE_MAX)%Z ->
  (Z.of_nat (length items) <= index)%Z ->
  operator_subscript self index rt
  = (Throw (IndexAccessError index_error), set_err None rt)
  /\ (forall v, fst (operator_subscript self index rt) <> Return v)
  /\ (exists rt1,
        PyList_GetItem (ptr self) (static_cast_ssize_t index) rt = (None, rt1)
        /\ err_indicator rt1 = Some index_error
        /\ fst (operator_subscript self index rt)
           = Throw (error_already_set (err_indicator rt1))).
Proof.
  intros Hw Hr Hge.
  pose proof (operator_subscript_miss rt self a items index Hw Hr Hge) as Heq.
  rewrite Heq. simpl.
  split; [reflexivity |].
  split; [intros v; discriminate |].
  destruct Hw as (Hptr & Hlive & Hmax).
  exists (set_err (Some index_error) rt).
  rewrite Hptr.
  rewrite (PyList_GetItem_out_of_range rt a items _ Hlive)
    by (apply static_cast_ssize_t_rejected; assumption).
  repeat split.
Qed.

(** C10: [operator[]] never wraps a large index around to the end of the
    list.  For every [size_t] argument at or beyond the length, also one
    whose conversion to the signed index is negative, it throws the index
    error; the outcome is not the conversion of any element of the list. *)
Theorem operator_subscript_no_wraparound
    (rt : PyRuntime) (self : List T) (a : addr) (items : list PyObject) (index : Z) :
  wraps rt self a items ->
  (0 <= index <= SIZE_MAX)%Z ->
  (Z.of_nat (length items) <= index)%Z ->
  ((2 ^ 63 <= index)%Z -> (static_cast_ssize_t index < 0)%Z)
  /\ fst (operator_subscript self index rt) = Throw (IndexAccessError index_error)
  /\ (forall (k : nat) (x : PyObject),
        items !! k = Some x ->
        fst (operator_subscript self index rt) <> cast_from_handle (Some x)).
Proof.
  intros Hw Hr Hge.
  rewrite (operator_subscript_miss rt self a items index Hw Hr Hge). simpl.
  split.
  - intros Hbig. rewrite static_cast_ssize_t_large by lia.
    unfold SIZE_MAX in Hr. lia.
  - split; [reflexivity |].
    intros k x _ Heq. symmetry in Heq.
    apply cast_from_handle_Throw in Heq as [Hce _]. discriminate.
Qed.
End IndexedGet.

(** ** Append *)

Lemma PyList_Append_live
    (rt : PyRuntime) (a : addr) (items : list PyObject) (x : PyObject) :
  ob_item rt !! a = Some items ->
  PyList_Append (Some (PyListObject a)) (Some x) rt
  = if (Z.of_nat (length items) =? PY_SSIZE_T_MAX)%Z
    then ((-1)%Z, PyErr_SetString PyExc_OverflowError "cannot add more objects to list" rt)
    else if out_of_memory rt then ((-1)%Z, PyErr_NoMemory rt)
    else (0%Z, set_items a (items ++ [x]) rt).
Proof.
  intros Hlive. unfold PyList_Append. rewrite Hlive. reflexivity.
Qed.

(** A failing raw append always leaves an error pending. *)
Lemma PyList_Append_failure_pending (op newitem : handle) (rt : PyRuntime) :
  fst (PyList_Append op newitem rt) <> 0%Z ->
  exists e, err_indicator (snd (PyList_Append op newitem rt)) = Some e.
Proof.
  unfold PyList_Append.
  destruct op as [[| | | | a] |], newitem as [x |]; simpl;
    try (intros _; eexists; reflexivity).
  destruct (ob_item rt !! a) as [items |]; [| intros _; eexists; reflexivity].
  destruct (Z.of_nat (length items) =? PY_SSIZE_T_MAX)%Z; [intros _; eexists; reflexivity |].
  destruct (out_of_memory rt); [intros _; eexists; reflexivity |].
  simpl. intros Hrc. contradiction Hrc. reflexivity.
Qed.

Section Append.
Context {T : Type} `{type_caster T}.

(** [append] unfolded by the outcome of its two steps. *)
Lemma append_unfold (self : List T) (v : T) (rt : PyRuntime) :
  append self v rt
  = match cast v with
    | None => (Throw cast_error, rt)
    | Some x =>
        let (rc, rt1) := PyList_Append (ptr self) (Some x) rt in
        if (rc =? 0)%Z then (Return tt, rt1)
        else (Throw (error_already_set (err_indicator rt1)), set_err None rt1)
    end.
Proof.
  unfold append, list_base_append, py_bind, lift, call, object_or_cast.
  destruct (cast v) as [x |]; [| reflexivity].
  destruct (PyList_Append (ptr self) (Some x) rt) as [rc rt1].
  destruct (rc =? 0)%Z; reflexivity.
Qed.

Lemma append_success_inv
    (rt rt' : PyRuntime) (self : List T) (a : addr) (items : list PyObject) (v : T) :
  wraps rt self a items ->
  append self v rt = (Return tt, rt') ->
  exists x,
    cast v = Some x
    /\ (Z.of_nat (length items) < PY_SSIZE_T_MAX)%Z
    /\ rt' = set_items a (items ++ [x]) rt.
Proof.
  intros (Hptr & Hlive & Hmax) Happ.
  rewrite append_unfold in Happ.
  destruct (cast v) as [x |]; [| discriminate].
  exists x. split; [reflexivity |].
  rewrite Hptr, (PyList_Append_live rt a items x Hlive) in Happ.
  destruct (Z.eqb_spec (Z.of_nat (length items)) PY_SSIZE_T_MAX) as [Heq | Hne];
    [discriminate |].
  destruct (out_of_memory rt); [discriminate |].
  simpl in Happ. injection Happ as <-.
  split; [lia | reflexivity].
Qed.

Lemma wraps_set_items
    (rt : PyRuntime) (self : List T) (a : addr) (items items' : list PyObject) :
  wraps rt self a items ->
  (Z.of_nat (length items') <= PY_SSIZE_T_MAX)%Z ->
  wraps (set_items a items' rt) self a items'.
Proof.
  intros (Hptr & _ & _) Hmax. split; [exact Hptr |]. split; [| exact Hmax].
  unfold set_items. simpl. apply lookup_insert_eq.
Qed.

(** C7: a successful [append] makes the underlying list one longer, puts
    the converted value at the final index and leaves the elements at all
    earlier indices, and every other list, as they were. *)
Theorem append_extends_list
    (rt rt' : PyRuntime) (self : List T) (a : addr) (items : list PyObject) (v : T) :
  wraps rt self a items ->
  append self v rt = (Return tt, rt') ->
  exists x items',
    cast v = Some x
    /\ wraps rt' self a items'
    /\ length items' = S (length items)
    /\ items' !! length items = Some x
    /\ (forall i : nat, (i < length items)%nat -> items' !! i = items !! i)
    /\ (forall i : Z, (0 <= i < Z.of_nat (length items))%Z ->
          fst (PyList_GetItem (ptr self) i rt') = fst (PyList_GetItem (ptr self) i rt))
    /\ (forall b : addr, b <> a -> ob_item rt' !! b = ob_item rt !! b).
Proof.
  intros Hw Happ.
  destruct (append_success_inv rt rt' self a items v Hw Happ) as (x & Hx & Hlt & ->).
  exists x, (items ++ [x]).
  assert (Hlen : length (items ++ [x]) = S (length items)).
  { rewrite length_app. simpl. lia. }
  assert (Hw' : wraps (set_items a (items ++ [x]) rt) self a (items ++ [x])).
  { apply (wraps_set_items rt self a items); [exact Hw |]. rewrite Hlen. lia. }
  split; [exact Hx |].
  split; [exact Hw' |].
  split; [exact Hlen |].
  split; [apply list_lookup_middle; reflexivity |].
  split; [intros i Hi; apply lookup_app_l; exact Hi |].
  split.
  - intros i Hi.
    destruct Hw as (Hptr & Hlive & _). destruct Hw' as (_ & Hlive' & _).
    rewrite Hptr.
    rewrite (PyList_GetItem_in_range _ a (items ++ [x]) i Hlive') by (rewrite Hlen; lia).
    rewrite (PyList_GetItem_in_range rt a items i Hlive) by lia.
    simpl. apply lookup_app_l. lia.
  - intros b Hb. unfold set_items. simpl. apply lookup_insert_ne. congruence.
Qed.


(** C8: [append] throws TypeConversionError exactly when the conversion of
    the value to a handle fails, and throws RuntimeOperationError, carrying
    the error the raw append left pending, exactly when the conversion
    succeeds and the raw append fails.  It returns normally exactly when
    both succeed: a failure is never reported through a return value. *)
Theorem append_failures (self : List T) (v : T) (rt : PyRuntime) :
  (fst (append self v rt) = Throw TypeConversionError <-> cast v = None)
  /\ ((exists e, fst (append self v rt) = Throw (RuntimeOperationError e))
      <-> (exists x, cast v = Some x
                     /\ fst (PyList_Append (ptr self) (Some x) rt) <> 0%Z))
  /\ (forall x, cast v = Some x ->
        fst (PyList_Append (ptr self) (Some x) rt) <> 0%Z ->
        fst (append self v rt)
        = Throw (error_already_set
                   (err_indicator (snd (PyList_Append (ptr self) (Some x) rt)))))
  /\ (fst (append self v rt) = Return tt
      <-> (exists x, cast v = Some x
                     /\ fst (PyList_Append (ptr self) (Some x) rt) = 0%Z)).
Proof.
  rewrite append_unfold.
  destruct (cast v) as [x |] eqn:Hcast.
  - pose proof (PyList_Append_failure_pending (ptr self) (Some x) rt) as Hpend.
    destruct (PyList_Append (ptr self) (Some x) rt) as [rc rt1] eqn:Hraw.
    simpl in Hpend.
    destruct (Z.eqb_spec rc 0) as [-> | Hne]; simpl.
    + split; [split; intros; discriminate |].
      split.
      { split.
        - intros [e He]. discriminate.
        - intros (y & Hy & Hrc). injection Hy as <-.
          rewrite Hraw in Hrc. contradiction Hrc. reflexivity. }
      split.
      { intros y Hy Hrc. injection Hy as <-.
        rewrite Hraw in Hrc. contradiction Hrc. reflexivity. }
      split; [intros _ | reflexivity].
      exists x. rewrite Hraw. split; reflexivity.
    + destruct (Hpend Hne) as [e He].
      split; [split; intros; discriminate |].
      split.
      { split.
        - intros _. exists x. rewrite Hraw. split; [reflexivity | exact Hne].
        - intros _. exists e. rewrite He. reflexivity. }
      split.
      { intros y Hy _. injection Hy as <-. rewrite Hraw. reflexivity. }
      split; [intros; discriminate |].
      intros (y & Hy & Hrc). injection Hy as <-.
      rewrite Hraw in Hrc. contradiction.
  - simpl. split; [split; reflexivity |].
    split.
    { split.
      - intros [e He]. discriminate.
      - intros (y & Hy & _). discriminate. }
    split; [intros y Hy; discriminate |].
    split; [intros; discriminate |].
    intros (y & Hy & _). discriminate.
Qed.
End Append.

(** ** Iteration *)

Section IterationProperties.
Context {T : Type} `{type_caster T}.

Lemma begin_at_pos (self : List T) : begin self = at_pos self 0.
Proof. reflexivity. Qed.

Lemma increment_at_pos (self : List T) (k : nat) :
  cast_input_iterator_increment (at_pos self k) = at_pos self (S k).
Proof.
  unfold cast_input_iterator_increment, list_iterator_increment, at_pos. simpl.
  do 2 f_equal. lia.
Qed.

Lemma advance_at_pos (self : List T) (n k : nat) :
  advance n (at_pos self k) = at_pos self (k + n).
Proof.
  revert k. induction n as [| n IH]; intros k; simpl.
  - f_equal. lia.
  - rewrite increment_at_pos, IH. f_equal. lia.
Qed.

Lemma end_at_pos (rt : PyRuntime) (self : List T) (a : addr) (items : list PyObject) :
  wraps rt self a items -> end_ self rt = at_pos self (length items).
Proof.
  intros (Hptr & Hlive & _).
  unfold end_, list_base_end, at_pos, PyList_GET_SIZE.
  rewrite Hptr, Hlive. reflexivity.
Qed.

Lemma equal_at_pos (self : List T) (a : addr) (j k : nat) :
  ptr self = Some (PyListObject a) ->
  cast_input_iterator_equal (at_pos self j) (at_pos self k) = bool_decide (j = k).
Proof.
  intros Hptr.
  unfold cast_input_iterator_equal, list_iterator_equal, at_pos. simpl.
  rewrite Hptr. simpl. rewrite bool_decide_eq_true_2 by reflexivity. simpl.
  destruct (Z.eqb_spec (Z.of_nat j) (Z.of_nat k)) as [Heq | Hne].
  - symmetry. apply bool_decide_eq_true_2. lia.
  - symmetry. apply bool_decide_eq_false_2. lia.
Qed.

Lemma dereference_at_pos
    (rt : PyRuntime) (self : List T) (a : addr) (items : list PyObject) (k : nat) :
  wraps rt self a items ->
  cast_input_iterator_dereference (at_pos self k) rt = cast_from_handle (items !! k).
Proof.
  intros (Hptr & Hlive & _).
  unfold cast_input_iterator_dereference, list_iterator_dereference, at_pos. simpl.
  rewrite Hptr, Hlive.
  destruct (Z.ltb_spec (Z.of_nat k) 0); [lia |].
  rewrite Nat2Z.id. reflexivity.
Qed.

Lemma range_for_from
    (rt : PyRuntime) (self : List T) (a : addr) (items : list PyObject) :
  wraps rt self a items ->
  forall (todo seen : list PyObject) (fuel : nat),
    items = seen ++ todo ->
    (length todo < fuel)%nat ->
    range_for fuel (at_pos self (length seen)) (at_pos self (length items)) rt
    = Some (convert_all todo).
Proof.
  intros Hw. pose proof Hw as (Hptr & _ & _).
  induction todo as [| x rest IH]; intros seen fuel Hitems Hfuel.
  - destruct fuel as [| f]; [simpl in Hfuel; lia |].
    simpl. rewrite (equal_at_pos self a) by exact Hptr.
    rewrite bool_decide_eq_true_2; [reflexivity |].
    rewrite Hitems, length_app. simpl. lia.
  - destruct fuel as [| f]; [simpl in Hfuel; lia |].
    simpl in Hfuel. simpl.
    rewrite (equal_at_pos self a) by exact Hptr.
    rewrite bool_decide_eq_false_2
      by (rewrite Hitems, length_app; simpl; lia).
    rewrite (dereference_at_pos rt self a items) by exact Hw.
    assert (Hx : items !! length seen = Some x).
    { rewrite Hitems. apply list_lookup_middle. reflexivity. }
    rewrite Hx.
    destruct (cast_from_handle (Some x)) as [v | ex]; [| reflexivity].
    rewrite increment_at_pos.
    assert (Hlen : S (length seen) = length (seen ++ [x])).
    { rewrite length_app. simpl. lia. }
    rewrite Hlen.
    rewrite (IH (seen ++ [x]) f); [| | lia].
    + destruct (convert_all rest) as [vs r]. reflexivity.
    + rewrite Hitems, <- app_assoc. reflexivity.
Qed.

Lemma convert_all_ok (items : list PyObject) (vs : list T) :
  Forall2 (fun x v => load (Some x) = Some v) items vs ->
  convert_all items = (vs, None).
Proof.
  induction 1 as [| x v items vs Hx _ IH]; simpl; [reflexivity |].
  unfold cast_from_handle. rewrite Hx, IH. reflexivity.
Qed.

Lemma convert_all_fail (pre post : list PyObject) (x : PyObject) (vs : list T) :
  Forall2 (fun y v => load (Some y) = Some v) pre vs ->
  incompatible T (Some x) ->
  convert_all (pre ++ x :: post) = (vs, Some TypeConversionError).
Proof.
  intros Hpre Hx.
  induction Hpre as [| y v pre vs Hy _ IH]; simpl.
  - unfold cast_from_handle. rewrite Hx. reflexivity.
  - unfold cast_from_handle at 1. rewrite Hy, IH. reflexivity.
Qed.

(** C4: iterating from [begin()] to [end()].  The two bounds are exactly
    [len] increments apart, building them converts nothing, the dereference
    at position [i] has the outcome of [operator[]] at index [i], and a
    consumer's loop yields the converted elements in index order: all [len]
    of them when each converts, and otherwise the ones before the first
    incompatible element followed by TypeConversionError. *)
Theorem iteration_yields_items_in_order
    (rt : PyRuntime) (self : List T) (a : addr) (items : list PyObject) :
  wraps rt self a items ->
  begin self = mk_cast_input_iterator (mk_list_iterator (ptr self) 0)
  /\ advance (length items) (begin self) = end_ self rt
  /\ (forall i : nat, (i < length items)%nat ->
        cast_input_iterator_equal (advance i (begin self)) (end_ self rt) = false)
  /\ (forall (i : nat) (x : PyObject), items !! i = Some x ->
        cast_input_iterator_dereference (advance i (begin self)) rt
        = cast_from_handle (Some x)
        /\ cast_input_iterator_dereference (advance i (begin self)) rt
           = fst (operator_subscript self (Z.of_nat i) rt))
  /\ (forall fuel : nat, (length items < fuel)%nat ->
        range_for fuel (begin self) (end_ self rt) rt = Some (convert_all items))
  /\ (forall vs : list T,
        Forall2 (fun x v => load (Some x) = Some v) items vs ->
        convert_all items = (vs, None) /\ length vs = length items)
  /\ (forall (pre post : list PyObject) (x : PyObject) (vs : list T),
        items = pre ++ x :: post ->
        Forall2 (fun y v => load (Some y) = Some v) pre vs ->
        incompatible T (Some x) ->
        convert_all items = (vs, Some TypeConversionError)).
Proof.
  intros Hw. pose proof Hw as (Hptr & Hlive & Hmax).
  split; [reflexivity |].
  rewrite begin_at_pos, (end_at_pos rt self a items Hw).
  split; [rewrite advance_at_pos; reflexivity |].
  split.
  { intros i Hi. rewrite advance_at_pos, (equal_at_pos self a) by exact Hptr.
    apply bool_decide_eq_false_2. simpl. lia. }
  split.
  { intros i x Hx. rewrite advance_at_pos. simpl.
    rewrite (dereference_at_pos rt self a items) by exact Hw.
    rewrite Hx. split; [reflexivity |].
    rewrite (operator_subscript_hit rt self a items (Z.of_nat i) x Hw);
      [reflexivity | lia | rewrite Nat2Z.id; exact Hx]. }
  split.
  { intros fuel Hfuel.
    apply (range_for_from rt self a items Hw items [] fuel); [reflexivity | exact Hfuel]. }
  split.
  { intros vs Hall. split; [apply convert_all_ok; exact Hall |].
    symmetry. eapply Forall2_length. exact Hall. }
  intros pre post x vs -> Hpre Hx. apply convert_all_fail; assumption.
Qed.

(** C9: no local recovery.  A failed raw get makes [operator[]] throw the
    pending error; an error of the conversion leaves [operator[]], an
    iterator dereference and [append] as it is; a value is returned only
    when the conversion produced it; a consumer's loop ends at the first
    error and the dereference is not tried again. *)
Theorem errors_propagate_unchanged :
  (forall (self : List T) (index : Z) (rt rt1 : PyRuntime),
      PyList_GetItem (ptr self) (static_cast_ssize_t index) rt = (None, rt1) ->
      operator_subscript self index rt
      = (Throw (error_already_set (err_indicator rt1)), set_err None rt1))
  /\ (forall (self : List T) (index : Z) (rt rt1 : PyRuntime) (x : PyObject) (e : exception),
        PyList_GetItem (ptr self) (static_cast_ssize_t index) rt = (Some x, rt1) ->
        cast_from_handle (Some x) = Throw e ->
        operator_subscript self index rt = (Throw e, rt1))
  /\ (forall (self : List T) (index : Z) (rt rt' : PyRuntime) (v : T),
        operator_subscript self index rt = (Return v, rt') ->
        exists x,
          PyList_GetItem (ptr self) (static_cast_ssize_t index) rt = (Some x, rt')
          /\ cast_from_handle (Some x) = Return v)
  /\ (forall (it : cast_input_iterator T) (rt : PyRuntime) (r : Result T),
        cast_from_handle (list_iterator_dereference (iter_ it) rt) = r ->
        cast_input_iterator_dereference it rt = r)
  /\ (forall (fuel : nat) (it e : cast_input_iterator T) (rt : PyRuntime) (ex : exception),
        cast_input_iterator_equal it e = false ->
        cast_input_iterator_dereference it rt = Throw ex ->
        range_for (S fuel) it e rt = Some ([], Some ex))
  /\ (forall (self : List T) (v : T) (rt : PyRuntime),
        append self v rt = list_base_append (ptr self) v rt)
  /\ (forall (self : List T) (v : T) (rt : PyRuntime) (e : exception),
        object_or_cast v = Throw e ->
        append self v rt = (Throw e, rt))
  /\ (forall (self : List T) (v : T) (rt rt1 : PyRuntime) (h : handle) (rc : Z),
        object_or_cast v = Return h ->
        PyList_Append (ptr self) h rt = (rc, rt1) ->
        rc <> 0%Z ->
        append self v rt
        = (Throw (error_already_set (err_indicator rt1)), set_err None rt1)).
Proof.
  split.
  { intros self index rt rt1 Hraw.
    unfold operator_subscript, py_bind, call. rewrite Hraw. reflexivity. }
  split.
  { intros self index rt rt1 x e Hraw Hcast.
    unfold operator_subscript, py_bind, call, lift. rewrite Hraw, Hcast. reflexivity. }
  split.
  { intros self index rt rt' v.
    unfold operator_subscript, py_bind, call, lift.
    destruct (PyList_GetItem (ptr self) (static_cast_ssize_t index) rt) as [[x |] rt1];
      simpl; [| discriminate].
    intros Heq. injection Heq as Hcast <-. exists x. split; [reflexivity | exact Hcast]. }
  split; [intros it rt r Hr; exact Hr |].
  split.
  { intros fuel it e rt ex Hne Hderef. simpl. rewrite Hne, Hderef. reflexivity. }
  split; [reflexivity |].
  split.
  { intros self v rt e Hconv.
    unfold append, list_base_append, py_bind, lift. rewrite Hconv. reflexivity. }
  intros self v rt rt1 h rc Hconv Hraw Hrc.
  unfold append, list_base_append, py_bind, lift, call. rewrite Hconv, Hraw.
  destruct (Z.eqb_spec rc 0); [contradiction | reflexivity].
Qed.
End IterationProperties.

(** ** Type descriptors *)

Lemma descr_plus_nil_l (b : PYBIND11_DESCR) : descr_plus (const_name EmptyString) b = b.
Proof. reflexivity. Qed.

Lemma descr_plus_cons (ch : Ascii.ascii) (a b : PYBIND11_DESCR) :
  descr_plus (String ch a) b = String ch (descr_plus a b).
Proof. reflexivity. Qed.

Lemma descr_plus_nil_r (a : PYBIND11_DESCR) : descr_plus a (const_name EmptyString) = a.
Proof.
  induction a as [| ch a IH]; [reflexivity |].
  rewrite descr_plus_cons, IH. reflexivity.
Qed.

Lemma descr_plus_assoc (a b c : PYBIND11_DESCR) :
  descr_plus (descr_plus a b) c = descr_plus a (descr_plus b c).
Proof.
  induction a as [| ch a IH]; [reflexivity |].
  rewrite !descr_plus_cons, IH. reflexivity.
Qed.

Lemma repeat_descr_snoc (n : nat) (s : PYBIND11_DESCR) :
  descr_plus (repeat_descr n s) s = descr_plus s (repeat_descr n s).
Proof.
  induction n as [| n IH]; simpl.
  - rewrite descr_plus_nil_l, descr_plus_nil_r. reflexivity.
  - rewrite descr_plus_assoc, IH. reflexivity.
Qed.

Lemma Nested_descriptor (n : nat) (T : Type) `{handle_type_name T} :
  @name (Nested n T) (handle_type_name_Nested n T)
  = descr_plus (repeat_descr n (const_name "List["))
      (descr_plus (name T) (repeat_descr n (const_name "]"))).
Proof.
  induction n as [| n IH].
  - cbn [repeat_descr]. rewrite descr_plus_nil_l, descr_plus_nil_r. reflexivity.
  - change (@name (Nested (S n) T) (handle_type_name_Nested (S n) T))
      with (descr_plus
              (descr_plus (const_name "List[")
                 (@name (Nested n T) (handle_type_name_Nested n T)))
              (const_name "]")).
    cbn [repeat_descr].
    rewrite IH, !descr_plus_assoc, repeat_descr_snoc. reflexivity.
Qed.

(** C5: the descriptor of [List<T>] is "List[", then the descriptor of [T],
    then "]", for every [T] with a registered descriptor; it nests, and the
    descriptor of a view of views of int is "List[List[int]]". *)
Theorem List_descriptor :
  (forall (T : Type) `{handle_type_name T},
      name (List T)
      = descr_plus (const_name "List[") (descr_plus (name T) (const_name "]")))
  /\ (forall (T : Type) `{handle_type_name T},
        name (List (List T))
        = descr_plus (const_name "List[List[") (descr_plus (name T) (const_name "]]")))
  /\ name (List (List integer)) = "List[List[int]]".
Proof.
  split.
  { intros T HT. unfold name at 1, handle_type_name_List. apply descr_plus_assoc. }
  split; [| reflexivity].
  intros T HT.
  change (name (List (List T))) with (@name (Nested 2 T) (handle_type_name_Nested 2 T)).
  rewrite Nested_descriptor. reflexivity.
Qed.

(** ** The shape check *)

Section ShapeCheck.
Context {T : Type} `{type_caster T}.

(** C6: [check_] accepts exactly the handles that refer to a list.  It
    accepts an empty list and a list with elements incompatible with [T];
    it rejects null and every other object.  Its answer depends neither on
    the items stored in the runtime nor on [T]. *)
Theorem check_is_outer_shape_only :
  (forall h : handle, check_ T h = true <-> exists a, h = Some (PyListObject a))
  /\ (forall (rt : PyRuntime) (a : addr),
        ob_item rt !! a = Some [] -> check_ T (Some (PyListObject a)) = true)
  /\ (forall (rt : PyRuntime) (a : addr) (items : list PyObject),
        ob_item rt !! a = Some items ->
        Exists (fun x => incompatible T (Some x)) items ->
        check_ T (Some (PyListObject a)) = true)
  /\ (forall h : handle,
        (forall a, h <> Some (PyListObject a)) -> check_ T h = false)
  /\ (forall (U : Type) (h : handle), check_ U h = check_ T h).
Proof.
  split.
  { intros h. unfold check_, list_base_check_. split.
    - destruct h as [[| | | | a] |]; simpl; intros Hc; try discriminate.
      exists a. reflexivity.
    - intros [a ->]. reflexivity. }
  split; [reflexivity |].
  split; [reflexivity |].
  split; [| reflexivity].
  intros h Hh. unfold check_, list_base_check_.
  destruct h as [[| | | | a] |]; simpl; try reflexivity.
  contradiction (Hh a). reflexivity.
Qed.
End ShapeCheck.

(** ** The scenarios of the specification *)

Example scenario_123 :
  fst (operator_subscript view1 1 rt123) = Return 2%Z
  /\ (let (r, rt') := append view1 4%Z rt123 in
      r = Return tt /\ fst (operator_subscript view1 3 rt') = Return 4%Z)
  /\ fst (operator_subscript view1 10 rt123) = Throw (IndexAccessError index_error).
Proof. repeat split. Qed.

Example scenario_1x3 :
  fst (operator_subscript view1 0 rt1x3) = Return 1%Z
  /\ fst (operator_subscript view1 1 rt1x3) = Throw TypeConversionError
  /\ range_for 4 (begin view1) (end_ view1 rt1x3) rt1x3
     = Some ([1%Z], Some TypeConversionError).
Proof. repeat split. Qed.

Example minus_one_is_not_the_last_element :
  static_cast_ssize_t SIZE_MAX = (-1)%Z
  /\ fst (operator_subscript view1 SIZE_MAX rt123) = Throw (IndexAccessError index_error).
Proof. split; reflexivity. Qed.

(** Two views that hold the same address share the list. *)
Example append_is_seen_through_another_view :
  let other : List integer := mkList (Some (PyListObject 1%positive)) in
  fst (operator_subscript other 3 (snd (append view1 4%Z rt123))) = Return 4%Z.
Proof. reflexivity. Qed.

(** ** The theorems at the scenarios *)

#[export] Instance type_caster_inverse_integer : type_caster_inverse integer.
Proof. intros v x Hx. injection Hx as <-. reflexivity. Qed.

Lemma operator_subscript_in_range_witness :
  wraps rt1x3 view1 1%positive items1x3
  /\ (0 <= 1 < Z.of_nat (length items1x3))%Z
  /\ exists x,
       items1x3 !! Z.to_nat 1 = Some x
       /\ operator_subscript view1 1 rt1x3 = (cast_from_handle (Some x), rt1x3)
       /\ (fst (operator_subscript view1 1 rt1x3) = Throw TypeConversionError
           <-> incompatible integer (Some x)).
Proof.
  assert (Hw : wraps rt1x3 view1 1%positive items1x3) by wraps_by_computation.
  assert (Hi : (0 <= 1 < Z.of_nat (length items1x3))%Z) by (simpl; lia).
  split; [exact Hw |]. split; [exact Hi |].
  destruct (operator_subscript_in_range rt1x3 view1 1%positive items1x3 1 Hw Hi)
    as (x & Hx & Heq & Hinc & _).
  exists x. split; [exact Hx |]. split; [exact Heq | exact Hinc].
Defined.

Lemma operator_subscript_out_of_range_witness :
  wraps rt123 view1 1%positive items123
  /\ (0 <= 10 <= SIZE_MAX)%Z
  /\ (Z.of_nat (length items123) <= 10)%Z
  /\ operator_subscript view1 10 rt123
     = (Throw (IndexAccessError index_error), set_err None rt123).
Proof.
  assert (Hw : wraps rt123 view1 1%positive items123) by wraps_by_computation.
  assert (Hr : (0 <= 10 <= SIZE_MAX)%Z) by (unfold SIZE_MAX; lia).
  assert (Hge : (Z.of_nat (length items123) <= 10)%Z) by (simpl; lia).
  split; [exact Hw |]. split; [exact Hr |]. split; [exact Hge |].
  exact (proj1 (operator_subscript_out_of_range rt123 view1 1%positive items123 10 Hw Hr Hge)).
Defined.

Lemma operator_subscript_no_wraparound_witness :
  wraps rt123 view1 1%positive items123
  /\ (0 <= SIZE_MAX <= SIZE_MAX)%Z
  /\ (Z.of_nat (length items123) <= SIZE_MAX)%Z
  /\ (static_cast_ssize_t SIZE_MAX < 0)%Z
  /\ fst (operator_subscript view1 SIZE_MAX rt123) = Throw (IndexAccessError index_error).
Proof.
  assert (Hw : wraps rt123 view1 1%positive items123) by wraps_by_computation.
  assert (Hr : (0 <= SIZE_MAX <= SIZE_MAX)%Z) by (unfold SIZE_MAX; lia).
  assert (Hge : (Z.of_nat (length items123) <= SIZE_MAX)%Z) by (unfold SIZE_MAX; simpl; lia).
  split; [exact Hw |]. split; [exact Hr |]. split; [exact Hge |].
  destruct (operator_subscript_no_wraparound rt123 view1 1%positive items123 SIZE_MAX Hw Hr Hge)
    as (Hneg & Hthrow & _).
  split; [apply Hneg; unfold SIZE_MAX; lia | exact Hthrow].
Defined.



Lemma append_extends_list_witness :
  wraps rt123 view1 1%positive items123
  /\ append view1 4%Z rt123 = (Return tt, rt1234)
  /\ exists x items',
       cast 4%Z = Some x
       /\ wraps rt1234 view1 1%positive items'
       /\ length items' = S (length items123)
       /\ items' !! length items123 = Some x
       /\ (forall i : nat, (i < length items123)%nat -> items' !! i = items123 !! i).
Proof.
  assert (Hw : wraps rt123 view1 1%positive items123) by wraps_by_computation.
  assert (Happ : append view1 4%Z rt123 = (Return tt, rt1234)) by reflexivity.
  split; [exact Hw |]. split; [exact Happ |].
  destruct (append_extends_list rt123 rt1234 view1 1%positive items123 4%Z Hw Happ)
    as (x & items' & Hx & Hw' & Hlen & Hlast & Hold & _).
  exists x, items'. repeat (split; [assumption |]). exact Hold.
Defined.

Lemma append_failures_witness :
  cast 4%Z = Some (PyLong 4)
  /\ fst (PyList_Append (ptr view1) (Some (PyLong 4)) rt_exhausted) <> 0%Z
  /\ fst (append view1 4%Z rt_exhausted)
     = Throw (RuntimeOperationError (mkPyErr PyExc_MemoryError EmptyString)).
Proof.
  assert (Hcast : cast 4%Z = Some (PyLong 4)) by reflexivity.
  assert (Hrc : fst (PyList_Append (ptr view1) (Some (PyLong 4)) rt_exhausted) <> 0%Z)
    by (vm_compute; intros Heq; discriminate Heq).
  split; [exact Hcast |]. split; [exact Hrc |].
  destruct (append_failures view1 4%Z rt_exhausted) as (_ & _ & Hcarry & _).
  exact (Hcarry (PyLong 4) Hcast Hrc).
Defined.

Lemma iteration_yields_items_in_order_witness :
  wraps rt1x3 view1 1%positive items1x3
  /\ advance (length items1x3) (begin view1) = end_ view1 rt1x3
  /\ range_for 4 (begin view1) (end_ view1 rt1x3) rt1x3 = Some (convert_all items1x3)
  /\ convert_all items1x3 = ([1%Z], Some TypeConversionError).
Proof.
  assert (Hw : wraps rt1x3 view1 1%positive items1x3) by wraps_by_computation.
  split; [exact Hw |].
  destruct (iteration_yields_items_in_order rt1x3 view1 1%positive items1x3 Hw)
    as (_ & Hend & _ & _ & Hloop & _ & Hfail).
  split; [exact Hend |].
  split; [apply Hloop; simpl; lia |].
  apply (Hfail [PyLong 1] [PyLong 3] (PyUnicode "x") [1%Z]).
  - reflexivity.
  - constructor; [reflexivity | constructor].
  - reflexivity.
Defined.

Lemma errors_propagate_unchanged_witness :
  PyList_GetItem (ptr view1) (static_cast_ssize_t 1) rt1x3 = (Some (PyUnicode "x"), rt1x3)
  /\ cast_from_handle (T := integer) (Some (PyUnicode "x")) = Throw cast_error
  /\ operator_subscript view1 1 rt1x3 = (Throw cast_error, rt1x3).
Proof.
  assert (Hraw : PyList_GetItem (ptr view1) (static_cast_ssize_t 1) rt1x3
                 = (Some (PyUnicode "x"), rt1x3)) by reflexivity.
  assert (Hcast : cast_from_handle (T := integer) (Some (PyUnicode "x")) = Throw cast_error)
    by reflexivity.
  split; [exact Hraw |]. split; [exact Hcast |].
  destruct (errors_propagate_unchanged (T := integer)) as (_ & Hconv & _).
  exact (Hconv view1 1%Z rt1x3 rt1x3 (PyUnicode "x") cast_error Hraw Hcast).
Defined.

Lemma check_is_outer_shape_only_witness :
  ob_item rt1x3 !! 1%positive = Some items1x3
  /\ Exists (fun x => incompatible integer (Some x)) items1x3
  /\ check_ integer (Some (PyListObject 1%positive)) = true
  /\ check_ integer (Some (PyLong 3)) = false.
Proof.
  assert (Hlive : ob_item rt1x3 !! 1%positive = Some items1x3) by reflexivity.
  assert (Hbad : Exists (fun x => incompatible integer (Some x)) items1x3).
  { apply Exists_cons_tl, Exists_cons_hd. reflexivity. }
  split; [exact Hlive |]. split; [exact Hbad |].
  destruct (check_is_outer_shape_only (T := integer)) as (_ & _ & Hlist & Hother & _).
  split; [exact (Hlist rt1x3 1%positive items1x3 Hlive Hbad) |].
  apply Hother. intros a Heq. discriminate.
Defined.

(** * Further properties of the view *)

(** ** What a call does to the runtime *)

Lemma PyList_GetItem_cases (op : handle) (i : Z) (rt : PyRuntime) :
  (exists x, PyList_GetItem op i rt = (Some x, rt))
  \/ (exists e, PyList_GetItem op i rt = (None, set_err (Some e) rt)).
Proof.
  unfold PyList_GetItem.
  destruct op as [[| | | | a] |]; try (right; eexists; reflexivity).
  destruct (ob_item rt !! a) as [items |]; [| right; eexists; reflexivity].
  destruct (Z.ltb_spec i 0); simpl; [right; eexists; reflexivity |].
  destruct (Z.leb_spec (Z.of_nat (length items)) i); [right; eexists; reflexivity |].
  left. destruct (lookup_lt_is_Some_2 items (Z.to_nat i)) as [x Hx]; [lia |].
  exists x. rewrite Hx. reflexivity.
Qed.

(** The outcome of a read depends on the runtime through its lists only. *)
Lemma operator_subscript_store_only {T : Type} `{type_caster T}
    (self : List T) (index : Z) (rt rt2 : PyRuntime) :
  ob_item rt = ob_item rt2 ->
  fst (operator_subscript self index rt) = fst (operator_subscript self index rt2).
Proof.
  intros Heq. unfold operator_subscript, py_bind, call, PyList_GetItem. rewrite Heq.
  destruct (ptr self) as [[| | | | a] |]; simpl; try reflexivity.
  destruct (ob_item rt2 !! a) as [items |]; [| reflexivity].
  destruct (Z.ltb_spec (static_cast_ssize_t index) 0); simpl; [reflexivity |].
  destruct (Z.leb_spec (Z.of_nat (length items)) (static_cast_ssize_t index));
    [reflexivity |].
  destruct (lookup_lt_is_Some_2 items (Z.to_nat (static_cast_ssize_t index))) as [x Hx];
    [lia |].
  rewrite Hx. reflexivity.
Qed.

Section RuntimeEffects.
Context {T : Type} `{type_caster T}.

Lemma operator_subscript_cases (self : List T) (index : Z) (rt : PyRuntime) :
  (exists x, operator_subscript self index rt = (cast_from_handle (Some x), rt))
  \/ (exists e, operator_subscript self index rt
                = (Throw (error_already_set (Some e)), set_err None rt)).
Proof.
  unfold operator_subscript, py_bind, call.
  destruct (PyList_GetItem_cases (ptr self) (static_cast_ssize_t index) rt)
    as [[x Hx] | [e He]].
  - left. exists x. rewrite Hx. reflexivity.
  - right. exists e. rewrite He. reflexivity.
Qed.

(** X1: a read never changes a list.  When it returns or fails in the
    conversion the runtime is exactly as before; when it throws
    [error_already_set] the exception carries an error and no error is left
    pending.  In every case a later read has the outcome it would have had
    without this one. *)
Theorem operator_subscript_runtime_effect (self : List T) (index : Z) (rt : PyRuntime) :
  match fst (operator_subscript self index rt) with
  | Throw (error_already_set pe) =>
      snd (operator_subscript self index rt) = set_err None rt
      /\ exists e, pe = Some e
  | _ => snd (operator_subscript self index rt) = rt
  end
  /\ ob_item (snd (operator_subscript self index rt)) = ob_item rt
  /\ (forall (U : Type) (HU : type_caster U) (other : List U) (j : Z),
        fst (operator_subscript other j (snd (operator_subscript self index rt)))
        = fst (operator_subscript other j rt)).
Proof.
  assert (Hstore : ob_item (snd (operator_subscript self index rt)) = ob_item rt).
  { destruct (operator_subscript_cases self index rt) as [[x Hx] | [e He]].
    - rewrite Hx. reflexivity.
    - rewrite He. reflexivity. }
  split; [| split; [exact Hstore |]].
  - destruct (operator_subscript_cases self index rt) as [[x Hx] | [e He]].
    + rewrite Hx. simpl. unfold cast_from_handle.
      destruct (load (Some x)); reflexivity.
    + rewrite He. simpl. split; [reflexivity | exists e; reflexivity].
  - intros U HU other j. apply operator_subscript_store_only. exact Hstore.
Qed.

(** X2: a view that wraps an object that is not a list.  Every read, at any
    index, throws [error_already_set] carrying a SystemError; nothing is
    returned, no conversion is tried and no error is left pending. *)
Theorem not_a_list_always_throws
    (self : List T) (o : PyObject) (index : Z) (rt : PyRuntime) :
  ptr self = Some o ->
  PyList_Check o = false ->
  exists e,
    exc_type e = PyExc_SystemError
    /\ operator_subscript self index rt
       = (Throw (error_already_set (Some e)), set_err None rt).
Proof.
  intros Hptr Hcheck.
  unfold operator_subscript, py_bind, call, PyList_GetItem. rewrite Hptr.
  destruct o; try discriminate;
    exists (mkPyErr PyExc_SystemError "bad argument to internal function");
    split; reflexivity.
Qed.

(** X3: [append] is all or nothing.  When it returns, exactly one item was
    put at the end of the wrapped list; when it throws, no list has changed:
    after a failed conversion the runtime is as before, and after a failed
    raw append the exception carries the error and none is left pending. *)
Theorem append_runtime_effect (self : List T) (v : T) (rt : PyRuntime) :
  match fst (append self v rt) with
  | Return _ =>
      exists a items x,
        ptr self = Some (PyListObject a)
        /\ ob_item rt !! a = Some items
        /\ cast v = Some x
        /\ snd (append self v rt) = set_items a (items ++ [x]) rt
  | Throw cast_error =>
      cast v = None /\ snd (append self v rt) = rt
  | Throw (error_already_set pe) =>
      (exists e, pe = Some e)
      /\ snd (append self v rt) = set_err None rt
  end
  /\ (forall e, fst (append self v rt) = Throw e ->
        ob_item (snd (append self v rt)) = ob_item rt).
Proof.
  unfold append, list_base_append, py_bind, lift, call, object_or_cast, PyList_Append.
  destruct (cast v) as [x |] eqn:Hcast; simpl; [| split; [split |]; reflexivity].
  destruct (ptr self) as [[| | | | a] |]; simpl;
    try (split; [split; [eexists; reflexivity | reflexivity] | reflexivity]).
  destruct (ob_item rt !! a) as [items |] eqn:Hlive; simpl;
    [| split; [split; [eexists; reflexivity | reflexivity] | reflexivity]].
  destruct (Z.of_nat (length items) =? PY_SSIZE_T_MAX)%Z; simpl;
    [split; [split; [eexists; reflexivity | reflexivity] | reflexivity] |].
  destruct (out_of_memory rt); simpl;
    [split; [split; [eexists; reflexivity | reflexivity] | reflexivity] |].
  split; [| intros e He; discriminate].
  exists a, items, x.
  split; [reflexivity |]. split; [exact Hlive |]. split; reflexivity.
Qed.
End RuntimeEffects.

(** ** The index conversion *)

(** X4: [static_cast<ssize_t>] on a [size_t]: the result is a signed 64-bit
    value congruent to the argument, it is the argument itself exactly below
    2^63 and negative exactly from 2^63 on, and two different arguments never
    convert to the same position. *)
Theorem static_cast_ssize_t_two_complement (index : Z) :
  (0 <= index <= SIZE_MAX)%Z ->
  (- 2 ^ 63 <= static_cast_ssize_t index < 2 ^ 63)%Z
  /\ (static_cast_ssize_t index mod 2 ^ 64 = index)%Z
  /\ (static_cast_ssize_t index = index <-> index < 2 ^ 63)%Z
  /\ (static_cast_ssize_t index < 0 <-> 2 ^ 63 <= index)%Z
  /\ (forall other : Z,
        (0 <= other <= SIZE_MAX)%Z ->
        static_cast_ssize_t other = static_cast_ssize_t index -> other = index).
Proof.
  intros Hr. pose proof Hr as Hr'. unfold SIZE_MAX in Hr'.
  assert (Hcases : forall i, (0 <= i <= SIZE_MAX)%Z ->
            (i < 2 ^ 63 /\ static_cast_ssize_t i = i)%Z
            \/ (2 ^ 63 <= i /\ static_cast_ssize_t i = i - 2 ^ 64)%Z).
  { intros i Hi. destruct (Z.lt_ge_cases i (2 ^ 63)) as [Hs | Hl].
    - left. split; [exact Hs |]. apply static_cast_ssize_t_small. lia.
    - right. split; [exact Hl |]. apply static_cast_ssize_t_large. lia. }
  destruct (Hcases index Hr) as [[Hs ->] | [Hl ->]].
  - split; [lia |]. split; [apply Z.mod_small; lia |].
    split; [split; intros; [exact Hs | reflexivity] |].
    split; [lia |].
    intros other Ho Heq. unfold SIZE_MAX in Ho.
    destruct (Hcases other) as [[_ Hc] | [Hb Hc]]; [unfold SIZE_MAX; lia | |];
      rewrite Hc in Heq; lia.
  - split; [lia |].
    split.
    { replace (index - 2 ^ 64)%Z with (index + (-1) * 2 ^ 64)%Z by lia.
      rewrite Z.mod_add by lia. apply Z.mod_small. lia. }
    split; [lia |]. split; [lia |].
    intros other Ho Heq. unfold SIZE_MAX in Ho.
    destruct (Hcases other) as [[Hb Hc] | [Hb Hc]]; [unfold SIZE_MAX; lia | |];
      rewrite Hc in Heq; lia.
Qed.

(** ** Views that share a list, and lists that are not shared *)

Lemma wraps_same_ptr {T U : Type}
    (rt : PyRuntime) (self : List T) (other : List U) (a : addr) (items : list PyObject) :
  wraps rt self a items -> ptr other = ptr self -> wraps rt other a items.
Proof.
  intros (Hptr & Hlive & Hmax) Heq. split; [congruence |]. split; assumption.
Qed.

(** X5: after a successful [append] through one view, every view on the same
    list, of any element type, reads the new item at the old length, where a
    read failed before; reads at the earlier indices have the outcome they had;
    and every index beyond the new item is still out of range. *)
Theorem append_seen_through_every_view
    {T U : Type} {HT : type_caster T} {HU : type_caster U}
    (rt rt' : PyRuntime) (self : List T) (other : List U)
    (a : addr) (items : list PyObject) (v : T) :
  wraps rt self a items ->
  ptr other = ptr self ->
  append self v rt = (Return tt, rt') ->
  exists x,
    cast v = Some x
    /\ operator_subscript other (Z.of_nat (length items)) rt'
       = (cast_from_handle (Some x), rt')
    /\ fst (operator_subscript other (Z.of_nat (length items)) rt)
       = Throw (IndexAccessError index_error)
    /\ (forall i : Z, (0 <= i < Z.of_nat (length items))%Z ->
          operator_subscript other i rt' = (fst (operator_subscript other i rt), rt'))
    /\ (forall i : Z, (Z.of_nat (length items) < i <= SIZE_MAX)%Z ->
          fst (operator_subscript other i rt') = Throw (IndexAccessError index_error)).
Proof.
  intros Hw Hsame Happ.
  destruct (append_success_inv rt rt' self a items v Hw Happ) as (x & Hx & Hlt & ->).
  assert (Hlen : length (items ++ [x]) = S (length items)).
  { rewrite length_app. simpl. lia. }
  assert (Hwo : wraps rt other a items) by (eapply wraps_same_ptr; eassumption).
  assert (Hwo' : wraps (set_items a (items ++ [x]) rt) other a (items ++ [x])).
  { apply (wraps_set_items rt other a items); [exact Hwo |]. rewrite Hlen. lia. }
  pose proof Hw as (_ & _ & Hmax). unfold PY_SSIZE_T_MAX in Hmax, Hlt.
  exists x. split; [exact Hx |].
  split.
  { apply (operator_subscript_hit _ other a (items ++ [x])); [exact Hwo' | lia |].
    rewrite Nat2Z.id. apply list_lookup_middle. reflexivity. }
  split.
  { rewrite (operator_subscript_miss rt other a items); [reflexivity | exact Hwo | | lia].
    unfold SIZE_MAX. lia. }
  split.
  - intros i Hi.
    destruct (lookup_in_range items i Hi) as [y Hy].
    rewrite (operator_subscript_hit rt other a items i y Hwo (proj1 Hi) Hy). simpl.
    apply (operator_subscript_hit _ other a (items ++ [x])); [exact Hwo' | lia |].
    rewrite lookup_app_l by lia. exact Hy.
  - intros i Hi.
    rewrite (operator_subscript_miss _ other a (items ++ [x]));
      [reflexivity | exact Hwo' | lia | rewrite Hlen; lia].
Qed.

(** X6: a successful [append] to one list leaves every view on another list
    as it was: the same items, the same outcome of every read, the same
    traversal. *)
Theorem append_leaves_other_lists
    {T U : Type} {HT : type_caster T} {HU : type_caster U}
    (rt rt' : PyRuntime) (self : List T) (other : List U)
    (a b : addr) (items items_b : list PyObject) (v : T) :
  wraps rt self a items ->
  wraps rt other b items_b ->
  b <> a ->
  append self v rt = (Return tt, rt') ->
  wraps rt' other b items_b
  /\ (forall i : Z, (0 <= i <= SIZE_MAX)%Z ->
        fst (operator_subscript other i rt') = fst (operator_subscript other i rt))
  /\ (forall fuel : nat, (length items_b < fuel)%nat ->
        range_for fuel (begin other) (end_ other rt') rt'
        = range_for fuel (begin other) (end_ other rt) rt).
Proof.
  intros Hw Hwb Hne Happ.
  destruct (append_success_inv rt rt' self a items v Hw Happ) as (x & Hx & Hlt & ->).
  assert (Hwb' : wraps (set_items a (items ++ [x]) rt) other b items_b).
  { destruct Hwb as (Hptr & Hlive & Hmax).
    split; [exact Hptr |]. split; [| exact Hmax].
    unfold set_items. simpl. rewrite lookup_insert_ne by congruence. exact Hlive. }
  split; [exact Hwb' |].
  split.
  - intros i Hi.
    destruct (Z.lt_ge_cases i (Z.of_nat (length items_b))) as [Hin | Hout].
    + destruct (lookup_in_range items_b i (conj (proj1 Hi) Hin)) as [y Hy].
      rewrite (operator_subscript_hit _ other b items_b i y Hwb' (proj1 Hi) Hy).
      rewrite (operator_subscript_hit rt other b items_b i y Hwb (proj1 Hi) Hy).
      reflexivity.
    + rewrite (operator_subscript_miss _ other b items_b i Hwb' Hi Hout).
      rewrite (operator_subscript_miss rt other b items_b i Hwb Hi Hout).
      reflexivity.
  - intros fuel Hfuel.
    rewrite !begin_at_pos.
    rewrite (end_at_pos _ other b items_b Hwb'), (end_at_pos rt other b items_b Hwb).
    rewrite (range_for_from _ other b items_b Hwb' items_b [] fuel eq_refl Hfuel).
    rewrite (range_for_from rt other b items_b Hwb items_b [] fuel eq_refl Hfuel).
    reflexivity.
Qed.

(** ** Appending and traversing *)

Section AppendAndTraverse.
Context {T : Type} `{type_caster T}.

Lemma convert_all_app (xs ys : list PyObject) :
  convert_all (T := T) (xs ++ ys)
  = match convert_all xs with
    | (vs, None) => let (ws, r) := convert_all ys in (vs ++ ws, r)
    | (vs, Some e) => (vs, Some e)
    end.
Proof.
  induction xs as [| x xs IH]; simpl.
  - destruct (convert_all ys). reflexivity.
  - destruct (cast_from_handle (Some x)) as [v | e]; [| reflexivity].
    rewrite IH. destruct (convert_all xs) as [vs [e |]]; [reflexivity |].
    destruct (convert_all ys). reflexivity.
Qed.

Lemma append_all_success_inv (self : List T) (a : addr) (vs : list T) :
  forall (rt rt' : PyRuntime) (items : list PyObject),
    wraps rt self a items ->
    append_all self vs rt = (Return tt, rt') ->
    exists hs,
      Forall2 (fun v h => cast v = Some h) vs hs
      /\ wraps rt' self a (items ++ hs).
Proof.
  induction vs as [| v rest IH]; intros rt rt' items Hw Hall.
  - simpl in Hall. injection Hall as <-. exists []. split; [constructor |].
    rewrite app_nil_r. exact Hw.
  - simpl in Hall. unfold py_bind in Hall.
    destruct (append self v rt) as [[[] | e] rt1] eqn:Happ; [| discriminate].
    destruct (append_success_inv rt rt1 self a items v Hw Happ) as (x & Hx & Hlt & ->).
    assert (Hw1 : wraps (set_items a (items ++ [x]) rt) self a (items ++ [x])).
    { apply (wraps_set_items rt self a items); [exact Hw |].
      rewrite length_app. simpl. lia. }
    destruct (IH _ _ _ Hw1 Hall) as (hs & Hhs & Hw').
    exists (x :: hs). split; [constructor; assumption |].
    rewrite <- app_assoc in Hw'. exact Hw'.
Qed.

(** X7: traversing after a successful [append], with a casting layer whose
    conversions are inverse.  When every earlier element converts, the
    traversal yields what it yielded before followed by the appended value;
    when an earlier element does not convert, the traversal ends there as
    before and the appended value is not reached. *)
Theorem iteration_after_append
    (rt rt' : PyRuntime) (self : List T) (a : addr) (items : list PyObject) (v : T) :
  type_caster_inverse T ->
  wraps rt self a items ->
  append self v rt = (Return tt, rt') ->
  forall fuel : nat, (S (length items) < fuel)%nat ->
    range_for fuel (begin self) (end_ self rt') rt'
    = Some (match convert_all items with
            | (vs, None) => (vs ++ [v], None)
            | (vs, Some e) => (vs, Some e)
            end).
Proof.
  intros Hinv Hw Happ fuel Hfuel.
  destruct (append_success_inv rt rt' self a items v Hw Happ) as (x & Hx & Hlt & ->).
  assert (Hlen : length (items ++ [x]) = S (length items)).
  { rewrite length_app. simpl. lia. }
  assert (Hw' : wraps (set_items a (items ++ [x]) rt) self a (items ++ [x])).
  { apply (wraps_set_items rt self a items); [exact Hw |]. rewrite Hlen. lia. }
  rewrite begin_at_pos, (end_at_pos _ self a (items ++ [x]) Hw').
  rewrite (range_for_from _ self a (items ++ [x]) Hw' (items ++ [x]) [] fuel eq_refl)
    by (rewrite Hlen; exact Hfuel).
  rewrite convert_all_app. simpl.
  unfold cast_from_handle at 1. rewrite (Hinv v x Hx).
  destruct (convert_all items) as [vs [e |]]; reflexivity.
Qed.

(** X8: appending the values [vs] one after the other, with a casting layer
    whose conversions are inverse.  When the loop completes, the list is
    longer by the number of values, the value appended [k]-th is read back at
    index [len + k], and when the earlier elements all convert a traversal
    yields them followed by [vs] in order. *)
Theorem append_all_then_read
    (rt rt' : PyRuntime) (self : List T) (a : addr) (items : list PyObject) (vs : list T) :
  type_caster_inverse T ->
  wraps rt self a items ->
  append_all self vs rt = (Return tt, rt') ->
  exists items',
    wraps rt' self a items'
    /\ length items' = (length items + length vs)%nat
    /\ (forall (k : nat) (v : T), vs !! k = Some v ->
          operator_subscript self (Z.of_nat (length items + k)) rt' = (Return v, rt'))
    /\ (forall ws : list T, convert_all items = (ws, None) ->
          forall fuel : nat, (length items + length vs < fuel)%nat ->
            range_for fuel (begin self) (end_ self rt') rt' = Some (ws ++ vs, None)).
Proof.
  intros Hinv Hw Hall.
  destruct (append_all_success_inv self a vs rt rt' items Hw Hall) as (hs & Hhs & Hw').
  assert (Hlen : length (items ++ hs) = (length items + length vs)%nat).
  { rewrite length_app. rewrite (Forall2_length _ _ _ Hhs). reflexivity. }
  exists (items ++ hs). split; [exact Hw' |]. split; [exact Hlen |].
  split.
  - intros k v Hk.
    destruct (Forall2_lookup_l _ _ _ _ _ Hhs Hk) as (h & Hh & Hcast).
    rewrite (operator_subscript_hit rt' self a (items ++ hs) _ h Hw'); [| lia |].
    + unfold cast_from_handle. rewrite (Hinv v h Hcast). reflexivity.
    + rewrite Nat2Z.id. rewrite lookup_app_r by lia.
      replace (length items + k - length items)%nat with k by lia. exact Hh.
  - intros ws Hws fuel Hfuel.
    rewrite begin_at_pos, (end_at_pos rt' self a (items ++ hs) Hw').
    rewrite (range_for_from rt' self a (items ++ hs) Hw' (items ++ hs) [] fuel eq_refl)
      by (rewrite Hlen; exact Hfuel).
    rewrite convert_all_app, Hws.
    rewrite (convert_all_ok hs vs); [reflexivity |].
    apply Forall2_flip. eapply Forall2_impl; [exact Hhs |].
    intros v h Hcast. apply (Hinv v h Hcast).
Qed.

(** X9: [begin()] and [end()] compare equal exactly when the wrapped list is
    empty, and then a traversal yields nothing and converts nothing. *)
Theorem begin_equals_end_iff_empty
    (rt : PyRuntime) (self : List T) (a : addr) (items : list PyObject) :
  wraps rt self a items ->
  (cast_input_iterator_equal (begin self) (end_ self rt) = true <-> items = [])
  /\ (items = [] ->
      forall fuel : nat, range_for (S fuel) (begin self) (end_ self rt) rt = Some ([], None)).
Proof.
  intros Hw. pose proof Hw as (Hptr & _ & _).
  rewrite begin_at_pos, (end_at_pos rt self a items Hw).
  rewrite (equal_at_pos self a 0 (length items) Hptr).
  split.
  - rewrite bool_decide_eq_true. split.
    + intros Hz. destruct items; [reflexivity | discriminate].
    + intros ->. reflexivity.
  - intros -> fuel. simpl.
    rewrite (equal_at_pos self a 0 0 Hptr). reflexivity.
Qed.
End AppendAndTraverse.

(** ** More on descriptors *)

Lemma length_descr_plus (a b : PYBIND11_DESCR) :
  String.length (descr_plus a b) = (String.length a + String.length b)%nat.
Proof.
  induction a as [| ch a IH]; [reflexivity |].
  rewrite descr_plus_cons. simpl. rewrite IH. reflexivity.
Qed.

Lemma length_repeat_descr (n : nat) (s : PYBIND11_DESCR) :
  String.length (repeat_descr n s) = (n * String.length s)%nat.
Proof.
  induction n as [| n IH]; [reflexivity |].
  cbn [repeat_descr]. rewrite length_descr_plus, IH. simpl. reflexivity.
Qed.

Lemma descr_plus_bracket_cancel (a b : PYBIND11_DESCR) :
  descr_plus a (const_name "]") = descr_plus b (const_name "]") -> a = b.
Proof.
  revert b. induction a as [| ch a IH]; intros [| ch' b] Heq.
  - reflexivity.
  - rewrite descr_plus_nil_l, descr_plus_cons in Heq.
    injection Heq as _ Heq. destruct b; discriminate Heq.
  - rewrite descr_plus_nil_l, descr_plus_cons in Heq.
    injection Heq as _ Heq. destruct a; discriminate Heq.
  - rewrite !descr_plus_cons in Heq. injection Heq as -> Heq.
    f_equal. apply IH. exact Heq.
Qed.

Lemma descr_plus_prefix_cancel (p a b : PYBIND11_DESCR) :
  descr_plus p a = descr_plus p b -> a = b.
Proof.
  induction p as [| ch p IH]; intros Heq; [exact Heq |].
  rewrite !descr_plus_cons in Heq. injection Heq as Heq. apply IH. exact Heq.
Qed.

Lemma List_name_unfold (T : Type) `{handle_type_name T} :
  name (List T) = descr_plus (const_name "List[") (descr_plus (name T) (const_name "]")).
Proof. unfold name at 1, handle_type_name_List. apply descr_plus_assoc. Qed.

Lemma bracket_depth_cons (ch : Ascii.ascii) (rest : PYBIND11_DESCR) (d : nat) :
  bracket_depth (String ch rest) d
  = if String.eqb (String ch EmptyString) "[" then bracket_depth rest (S d)
    else if String.eqb (String ch EmptyString) "]" then
      match d with
      | O => None
      | S k => bracket_depth rest k
      end
    else bracket_depth rest d.
Proof. reflexivity. Qed.

Lemma bracket_depth_app (a b : PYBIND11_DESCR) :
  forall d : nat,
    bracket_depth (descr_plus a b) d
    = match bracket_depth a d with
      | Some d' => bracket_depth b d'
      | None => None
      end.
Proof.
  induction a as [| ch a IH]; intros d; [reflexivity |].
  rewrite descr_plus_cons, !bracket_depth_cons.
  destruct (String.eqb (String ch EmptyString) "["); [apply IH |].
  destruct (String.eqb (String ch EmptyString) "]"); [| apply IH].
  destruct d; [reflexivity | apply IH].
Qed.

Lemma bracket_depth_deeper (s : PYBIND11_DESCR) :
  forall d d' : nat,
    bracket_depth s d = Some d' -> bracket_depth s (S d) = Some (S d').
Proof.
  induction s as [| ch s IH]; intros d d' Hd.
  - simpl in *. injection Hd as <-. reflexivity.
  - rewrite bracket_depth_cons in *.
    destruct (String.eqb (String ch EmptyString) "["); [apply IH; exact Hd |].
    destruct (String.eqb (String ch EmptyString) "]"); [| apply IH; exact Hd].
    destruct d; [discriminate | apply IH; exact Hd].
Qed.

Lemma balanced_List_step (s : PYBIND11_DESCR) :
  balanced s ->
  balanced (descr_plus (const_name "List[") (descr_plus s (const_name "]"))).
Proof.
  unfold balanced. intros Hs.
  rewrite bracket_depth_app.
  change (bracket_depth (const_name "List[") 0) with (Some 1%nat).
  cbv beta iota.
  rewrite bracket_depth_app, (bracket_depth_deeper s 0 0 Hs). reflexivity.
Qed.

(** X10: the descriptor of [n] levels of views around [T] is [n] times
    "List[", the descriptor of [T], and [n] times "]"; it is 6 characters
    longer for each level. *)
Theorem descriptor_of_nested_views (n : nat) (T : Type) `{handle_type_name T} :
  @name (Nested n T) (handle_type_name_Nested n T)
  = descr_plus (repeat_descr n (const_name "List["))
      (descr_plus (name T) (repeat_descr n (const_name "]")))
  /\ String.length (@name (Nested n T) (handle_type_name_Nested n T))
     = (String.length (name T) + 6 * n)%nat.
Proof.
  rewrite Nested_descriptor. split; [reflexivity |].
  rewrite !length_descr_plus, !length_repeat_descr. simpl. lia.
Qed.

(** X11: the composition of descriptors is injective: two views have the same
    descriptor exactly when their element types have the same descriptor. *)
Theorem List_descriptor_injective
    (T U : Type) {HT : handle_type_name T} {HU : handle_type_name U} :
  name (List T) = name (List U) <-> name T = name U.
Proof.
  rewrite !List_name_unfold. split.
  - intros Heq. apply descr_plus_prefix_cancel in Heq.
    apply descr_plus_bracket_cancel. exact Heq.
  - intros ->. reflexivity.
Qed.

(** X12: brackets stay matched: when the descriptor of [T] has matched
    brackets, so has the descriptor of a view of [T], at every level of
    nesting. *)
Theorem List_descriptor_balanced (T : Type) `{handle_type_name T} :
  balanced (name T) ->
  balanced (name (List T))
  /\ (forall n : nat, balanced (@name (Nested n T) (handle_type_name_Nested n T))).
Proof.
  intros HT. split.
  - rewrite List_name_unfold. apply balanced_List_step. exact HT.
  - induction n as [| n IH]; [exact HT |].
    change (@name (Nested (S n) T) (handle_type_name_Nested (S n) T))
      with (@name (List (Nested n T))
              (@handle_type_name_List (Nested n T) (handle_type_name_Nested n T))).
    rewrite (@List_name_unfold (Nested n T) (handle_type_name_Nested n T)).
    apply balanced_List_step. exact IH.
Qed.

(** ** The further properties at the scenarios *)

Lemma not_a_list_always_throws_witness :
  ptr view_of_int = Some (PyLong 5)
  /\ PyList_Check (PyLong 5) = false
  /\ exists e,
       exc_type e = PyExc_SystemError
       /\ operator_subscript view_of_int 0 rt123
          = (Throw (error_already_set (Some e)), set_err None rt123).
Proof.
  split; [reflexivity |]. split; [reflexivity |].
  exact (not_a_list_always_throws view_of_int (PyLong 5) 0 rt123 eq_refl eq_refl).
Defined.

Lemma append_runtime_effect_witness :
  fst (append view1 4%Z rt_exhausted)
  = Throw (error_already_set (Some (mkPyErr PyExc_MemoryError EmptyString)))
  /\ ob_item (snd (append view1 4%Z rt_exhausted)) = ob_item rt_exhausted.
Proof.
  assert (Hthrow : fst (append view1 4%Z rt_exhausted)
                   = Throw (error_already_set (Some (mkPyErr PyExc_MemoryError EmptyString))))
    by reflexivity.
  split; [exact Hthrow |].
  exact (proj2 (append_runtime_effect view1 4%Z rt_exhausted) _ Hthrow).
Defined.

Lemma static_cast_ssize_t_two_complement_witness :
  (0 <= SIZE_MAX <= SIZE_MAX)%Z
  /\ (- 2 ^ 63 <= static_cast_ssize_t SIZE_MAX < 2 ^ 63)%Z
  /\ (static_cast_ssize_t SIZE_MAX mod 2 ^ 64 = SIZE_MAX)%Z.
Proof.
  assert (Hr : (0 <= SIZE_MAX <= SIZE_MAX)%Z) by (unfold SIZE_MAX; lia).
  split; [exact Hr |].
  destruct (static_cast_ssize_t_two_complement SIZE_MAX Hr) as (Hrange & Hmod & _).
  split; [exact Hrange | exact Hmod].
Defined.

Lemma append_seen_through_every_view_witness :
  wraps rt123 view1 1%positive items123
  /\ ptr view1_as_lists = ptr view1
  /\ append view1 4%Z rt123 = (Return tt, rt1234)
  /\ exists x,
       cast 4%Z = Some x
       /\ operator_subscript view1_as_lists (Z.of_nat (length items123)) rt1234
          = (cast_from_handle (Some x), rt1234)
       /\ fst (operator_subscript view1_as_lists (Z.of_nat (length items123)) rt123)
          = Throw (IndexAccessError index_error).
Proof.
  assert (Hw : wraps rt123 view1 1%positive items123) by wraps_by_computation.
  assert (Happ : append view1 4%Z rt123 = (Return tt, rt1234)) by reflexivity.
  split; [exact Hw |]. split; [reflexivity |]. split; [exact Happ |].
  destruct (append_seen_through_every_view rt123 rt1234 view1 view1_as_lists
              1%positive items123 4%Z Hw eq_refl Happ)
    as (x & Hx & Hnew & Hold & _).
  exists x. split; [exact Hx |]. split; [exact Hnew | exact Hold].
Defined.

Lemma append_leaves_other_lists_witness :
  wraps rt_two view1 1%positive items123
  /\ wraps rt_two view2 2%positive items1x3
  /\ 2%positive <> 1%positive
  /\ append view1 4%Z rt_two
     = (Return tt, set_items 1%positive (items123 ++ [PyLong 4]) rt_two)
  /\ wraps (set_items 1%positive (items123 ++ [PyLong 4]) rt_two) view2 2%positive items1x3.
Proof.
  assert (Hw : wraps rt_two view1 1%positive items123) by wraps_by_computation.
  assert (Hwb : wraps rt_two view2 2%positive items1x3) by wraps_by_computation.
  assert (Hne : 2%positive <> 1%positive) by (intros Heq; discriminate Heq).
  assert (Happ : append view1 4%Z rt_two
                 = (Return tt, set_items 1%positive (items123 ++ [PyLong 4]) rt_two))
    by reflexivity.
  split; [exact Hw |]. split; [exact Hwb |]. split; [exact Hne |]. split; [exact Happ |].
  exact (proj1 (append_leaves_other_lists rt_two _ view1 view2 1%positive 2%positive
                  items123 items1x3 4%Z Hw Hwb Hne Happ)).
Defined.

Lemma iteration_after_append_witness :
  type_caster_inverse integer
  /\ wraps rt123 view1 1%positive items123
  /\ append view1 4%Z rt123 = (Return tt, rt1234)
  /\ range_for 5 (begin view1) (end_ view1 rt1234) rt1234
     = Some (match convert_all items123 with
             | (vs, None) => (vs ++ [4%Z], None)
             | (vs, Some e) => (vs, Some e)
             end).
Proof.
  assert (Hinv : type_caster_inverse integer).
  { intros v x Hx. injection Hx as <-. reflexivity. }
  assert (Hw : wraps rt123 view1 1%positive items123) by wraps_by_computation.
  assert (Happ : append view1 4%Z rt123 = (Return tt, rt1234)) by reflexivity.
  split; [exact Hinv |]. split; [exact Hw |]. split; [exact Happ |].
  apply (iteration_after_append rt123 rt1234 view1 1%positive items123 4%Z Hinv Hw Happ).
  simpl. lia.
Defined.

Lemma append_all_then_read_witness :
  type_caster_inverse integer
  /\ wraps rt123 view1 1%positive items123
  /\ append_all view1 [4%Z; 5%Z] rt123
     = (Return tt, snd (append_all view1 [4%Z; 5%Z] rt123))
  /\ exists items',
       wraps (snd (append_all view1 [4%Z; 5%Z] rt123)) view1 1%positive items'
       /\ length items' = (length items123 + length [4%Z; 5%Z])%nat.
Proof.
  assert (Hinv : type_caster_inverse integer).
  { intros v x Hx. injection Hx as <-. reflexivity. }
  assert (Hw : wraps rt123 view1 1%positive items123) by wraps_by_computation.
  assert (Hall : append_all view1 [4%Z; 5%Z] rt123
                 = (Return tt, snd (append_all view1 [4%Z; 5%Z] rt123))) by reflexivity.
  split; [exact Hinv |]. split; [exact Hw |]. split; [exact Hall |].
  destruct (append_all_then_read rt123 _ view1 1%positive items123 [4%Z; 5%Z] Hinv Hw Hall)
    as (items' & Hw' & Hlen & _).
  exists items'. split; [exact Hw' | exact Hlen].
Defined.

Lemma begin_equals_end_iff_empty_witness :
  wraps rt_empty view1 1%positive []
  /\ cast_input_iterator_equal (begin view1) (end_ view1 rt_empty) = true.
Proof.
  assert (Hw : wraps rt_empty view1 1%positive []) by wraps_by_computation.
  split; [exact Hw |].
  apply (proj1 (begin_equals_end_iff_empty rt_empty view1 1%positive [] Hw)).
  reflexivity.
Defined.

Lemma List_descriptor_injective_witness :
  name (List integer) = name (List integer) /\ name integer = name integer.
Proof.
  split; [reflexivity |].
  apply (proj1 (List_descriptor_injective integer integer)). reflexivity.
Defined.

Lemma List_descriptor_balanced_witness :
  balanced (name integer) /\ balanced (name (List integer)).
Proof.
  assert (Hint : balanced (name integer)) by reflexivity.
  split; [exact Hint |].
  exact (proj1 (List_descriptor_balanced integer Hint)).
Defined.
